(** * BottomSheet.tsx: the visibility state machine and drag-to-dismiss logic

    A shallow embedding of [src/BottomSheet.tsx].  JavaScript numbers are
    idealised as rationals ([Q]); React state cells and [Animated] values are
    fields of one record that the handlers pass along explicitly.  The props
    of an instance are fixed for its lifetime, so every closure of the
    component sees the same destructured values; the last part of the file
    follows an instance across renders with changing props, where the
    closures built by different renders differ. *)

From Stdlib Require Import QArith Lqa Bool List Lia.
Import ListNotations.
Open Scope Q_scope.

Module BottomSheet.

(** ** Props and their defaults (lines 35-50 and 138-149) *)

Inductive AnimationType : Type := none | slide | fade.

(** [interface Props]: every field is optional.  [customStyles] and
    [children] only reach the rendered tree and are left out; of [onClose]
    only its presence matters to the component. *)
Record Props : Type := mkProps {
  props_animationType : option AnimationType;
  props_height : option Q;
  props_minClosingHeight : option Q;
  props_duration : option Q;
  props_closeOnDragDown : option bool;
  props_closeOnPressMask : option bool;
  props_closeOnPressBack : option bool;
  props_onClose : bool
}.

(** The destructured parameters of the component function, after the
    default initialisers have been applied. *)
Record Config : Type := mkConfig {
  animationType : AnimationType;
  height : Q;
  minClosingHeight : Q;
  duration : Q;
  closeOnDragDown : bool;
  closeOnPressMask : bool;
  closeOnPressBack : bool;
  onClose : bool
}.

(** A destructuring default [x = d] yields [d] exactly when the property
    is absent. *)
Definition orDefault {A : Type} (x : option A) (d : A) : A :=
  match x with
  | Some v => v
  | None => d
  end.

Definition destructure (p : Props) : Config :=
  {| animationType := orDefault (props_animationType p) none;
     height := orDefault (props_height p) 260;
     minClosingHeight := orDefault (props_minClosingHeight p) 0;
     duration := orDefault (props_duration p) 300;
     closeOnDragDown := orDefault (props_closeOnDragDown p) false;
     closeOnPressMask := orDefault (props_closeOnPressMask p) true;
     closeOnPressBack := orDefault (props_closeOnPressBack p) true;
     onClose := props_onClose p |}.

(** [<BottomSheet onClose={...} />] and [<BottomSheet />]. *)
Definition noProps (withOnClose : bool) : Props :=
  mkProps None None None None None None None withOnClose.

(** ** The state of one instance *)

(** The two completion callbacks handed to [Animated.timing(...).start]:
    the one of the opening branch (lines 104-106) and the one of the
    closing branch (lines 111-116). *)
Inductive Completion : Type := PinHeight | FinishClose.

(** A timed run in flight on [animatedHeight]. *)
Record Timing : Type := mkTiming {
  toValue : Q;
  onEnd : Completion
}.

(** What the owner's [onClose] can observe when it is called. *)
Record Observed : Type := mkObserved {
  seen_visible : bool;
  seen_height : Q;
  seen_pan : Q * Q
}.

Record Sheet : Type := mkSheet {
  modalVisible : bool;            (* useState(false), line 96 *)
  animatedHeight : Q;             (* initialHeight, line 32 *)
  pan : Q * Q;                    (* initialPan, line 33: (x, y) *)
  heightTiming : option Timing;   (* run in flight on animatedHeight *)
  panSpring : bool;               (* a spring towards (0,0) is in flight on pan *)
  responder : bool;               (* the panel holds the gesture responder *)
  onCloseCalls : list Observed    (* invocations of onClose, latest first *)
}.

(** The first instance mounted after the module has been evaluated: the
    module-level [new Animated.Value(0)] and [new Animated.ValueXY()] of
    lines 32-33 still hold their initial values, and [useState(false)].
    The effect of [usePanResponder] has run, so [panResponder.current] is
    set from the first re-render on.  Instances mounted later are
    [mountedAt] below. *)
Definition initial : Sheet :=
  {| modalVisible := false;
     animatedHeight := 0;
     pan := (0, 0);
     heightTiming := None;
     panSpring := false;
     responder := false;
     onCloseCalls := [] |}.

(** [initialHeight] and [initialPan] are created once, at module level, and
    [useState(initialHeight)], [useState(initialPan)] (lines 152-153) hand
    these same two objects to every instance.  An instance mounted later
    therefore starts with whatever they hold at that moment: [a] and [p];
    everything else is new. *)
Definition mountedAt (a : Q) (p : Q * Q) : Sheet :=
  {| modalVisible := false;
     animatedHeight := a;
     pan := p;
     heightTiming := None;
     panSpring := false;
     responder := false;
     onCloseCalls := [] |}.

(** The instance mounted beside or after one that is in state [s], at a
    moment when nothing is in flight on the two shared values. *)
Definition mountedBeside (s : Sheet) : Sheet :=
  mountedAt (animatedHeight s) (pan s).

(** ** Primitive updates *)

Definition setModalVisible (v : bool) (s : Sheet) : Sheet :=
  {| modalVisible := v;
     animatedHeight := animatedHeight s;
     pan := pan s;
     heightTiming := heightTiming s;
     panSpring := panSpring s;
     responder := responder s;
     onCloseCalls := onCloseCalls s |}.

(** Modelled from the spec: the Animator is react-native's [Animated], which
    is outside this repository.  Its contract (spec, section 6): a run
    started on a value replaces the run in flight on that value, whose
    completion then never fires; the completion of the latest run fires
    once, when the value has reached its target. *)
Definition timing_start (target : Q) (k : Completion) (s : Sheet) : Sheet :=
  {| modalVisible := modalVisible s;
     animatedHeight := animatedHeight s;
     pan := pan s;
     heightTiming := Some (mkTiming target k);
     panSpring := panSpring s;
     responder := responder s;
     onCloseCalls := onCloseCalls s |}.

Definition timing_clear (s : Sheet) : Sheet :=
  {| modalVisible := modalVisible s;
     animatedHeight := animatedHeight s;
     pan := pan s;
     heightTiming := None;
     panSpring := panSpring s;
     responder := responder s;
     onCloseCalls := onCloseCalls s |}.

(** [animatedHeight.setValue(v)], also used for the frames of a run. *)
Definition animatedHeight_setValue (v : Q) (s : Sheet) : Sheet :=
  {| modalVisible := modalVisible s;
     animatedHeight := v;
     pan := pan s;
     heightTiming := heightTiming s;
     panSpring := panSpring s;
     responder := responder s;
     onCloseCalls := onCloseCalls s |}.

(** [pan.setValue(v)]: writing a value ends the spring in flight on it. *)
Definition pan_setValue (v : Q * Q) (s : Sheet) : Sheet :=
  {| modalVisible := modalVisible s;
     animatedHeight := animatedHeight s;
     pan := v;
     heightTiming := heightTiming s;
     panSpring := false;
     responder := responder s;
     onCloseCalls := onCloseCalls s |}.

(** [Animated.spring(pan, {toValue: {x: 0, y: 0}}).start()]. *)
Definition spring_start (s : Sheet) : Sheet :=
  {| modalVisible := modalVisible s;
     animatedHeight := animatedHeight s;
     pan := pan s;
     heightTiming := heightTiming s;
     panSpring := true;
     responder := responder s;
     onCloseCalls := onCloseCalls s |}.

Definition setResponder (b : bool) (s : Sheet) : Sheet :=
  {| modalVisible := modalVisible s;
     animatedHeight := animatedHeight s;
     pan := pan s;
     heightTiming := heightTiming s;
     panSpring := panSpring s;
     responder := b;
     onCloseCalls := onCloseCalls s |}.

Definition observe (s : Sheet) : Observed :=
  {| seen_visible := modalVisible s;
     seen_height := animatedHeight s;
     seen_pan := pan s |}.

(** [if (onClose) onClose();] *)
Definition call_onClose (cfg : Config) (s : Sheet) : Sheet :=
  if onClose cfg then
    {| modalVisible := modalVisible s;
       animatedHeight := animatedHeight s;
       pan := pan s;
       heightTiming := heightTiming s;
       panSpring := panSpring s;
       responder := responder s;
       onCloseCalls := observe s :: onCloseCalls s |}
  else s.

(** ** useBottomSheetVisibility (lines 81-131) *)

Definition setModalVisibility (cfg : Config) (visible : bool) (s : Sheet) : Sheet :=
  if visible then
    timing_start (height cfg) PinHeight (setModalVisible true s)
  else
    timing_start (minClosingHeight cfg) FinishClose s.

(** The bodies of the two completion callbacks. *)
Definition complete (cfg : Config) (k : Completion) (s : Sheet) : Sheet :=
  match k with
  | PinHeight => animatedHeight_setValue (height cfg) s
  | FinishClose =>
      call_onClose cfg (pan_setValue (0, 0) (setModalVisible false s))
  end.

(** ** usePanResponder (lines 52-79) *)

Definition onStartShouldSetPanResponder (cfg : Config) : bool :=
  closeOnDragDown cfg.

(** [Animated.event([null, {dy: pan.y}])] writes [gestureState.dy] into
    [pan.y] and nothing into [pan.x]. *)
Definition onPanResponderMove (dy : Q) (s : Sheet) : Sheet :=
  if Qlt_le_dec 0 dy then pan_setValue (fst (pan s), dy) s else s.

Definition onPanResponderRelease (cfg : Config) (dy : Q) (s : Sheet) : Sheet :=
  if Qlt_le_dec (height cfg / 4 - dy) 0 then setModalVisibility cfg false s
  else spring_start s.

(** ** The component (lines 133-231) *)

Definition close (cfg : Config) (s : Sheet) : Sheet :=
  setModalVisibility cfg false s.

Definition open (cfg : Config) (s : Sheet) : Sheet :=
  setModalVisibility cfg true s.

(** [onRequestClose={() => { if (closeOnPressBack) close(); }}] *)
Definition onRequestClose (cfg : Config) (s : Sheet) : Sheet :=
  if closeOnPressBack cfg then close cfg s else s.

(** [onPress={() => (closeOnPressMask ? close() : null)}] *)
Definition onPress (cfg : Config) (s : Sheet) : Sheet :=
  if closeOnPressMask cfg then close cfg s else s.

(** ** Delivery of events to the instance *)

(** What can happen to an instance: calls through the imperative handle,
    input on the rendered tree, and notifications of the Animator. *)
Inductive Event : Type :=
| CallOpen
| CallClose
| PressMask
| RequestClose
| TouchStart
| TouchMove (dy : Q)
| TouchRelease (dy : Q)
| HeightFrame (v : Q)
| HeightEnd
| SpringEnd.

(** [<Modal visible={modalVisible}>] renders its subtree, hence the mask and
    the panel carrying [panResponder.current.panHandlers], only while
    [modalVisible] holds (lines 191-226). *)
Definition mounted (s : Sheet) : bool := modalVisible s.

(** A frame of a timed run moves the value towards the target of the run. *)
Definition between (a b v : Q) : bool :=
  (Qle_bool a v && Qle_bool v b) || (Qle_bool b v && Qle_bool v a).

(** A view that leaves the tree gives up the responder. *)
Definition commit (s : Sheet) : Sheet :=
  if mounted s then s else setResponder false s.

Definition deliver (cfg : Config) (s : Sheet) (e : Event) : Sheet :=
  match e with
  | CallOpen => open cfg s
  | CallClose => close cfg s
  | PressMask => if mounted s then onPress cfg s else s
  | RequestClose => if mounted s then onRequestClose cfg s else s
  | TouchStart =>
      if mounted s && onStartShouldSetPanResponder cfg
      then setResponder true s else s
  | TouchMove dy =>
      if mounted s && responder s then onPanResponderMove dy s else s
  | TouchRelease dy =>
      if mounted s && responder s
      then setResponder false (onPanResponderRelease cfg dy s) else s
  | HeightFrame v =>
      match heightTiming s with
      | Some t =>
          if between (animatedHeight s) (toValue t) v
          then animatedHeight_setValue v s else s
      | None => s
      end
  | HeightEnd =>
      match heightTiming s with
      | Some t =>
          complete cfg (onEnd t)
            (timing_clear (animatedHeight_setValue (toValue t) s))
      | None => s
      end
  | SpringEnd => if panSpring s then pan_setValue (0, 0) s else s
  end.

Definition step (cfg : Config) (s : Sheet) (e : Event) : Sheet :=
  commit (deliver cfg s e).

Definition run (cfg : Config) (es : list Event) (s : Sheet) : Sheet :=
  fold_left (step cfg) es s.

Definition reachable (cfg : Config) (s : Sheet) : Prop :=
  exists es, s = run cfg es initial.

(** The states an instance reaches by its own events from [s0]. *)
Definition reachableFrom (cfg : Config) (s0 s : Sheet) : Prop :=
  exists es, s = run cfg es s0.

(** The completion of the run in flight when the last frame of the Animator
    has written [v]: the run is over, then its callback runs.  [deliver]
    takes the Animator at its word (the completion fires when the value has
    reached its target), which is the case [v = toValue]. *)
Definition finishRun (cfg : Config) (v : Q) (s : Sheet) : Sheet :=
  match heightTiming s with
  | Some t =>
      complete cfg (onEnd t) (timing_clear (animatedHeight_setValue v s))
  | None => s
  end.

(** ** Invariants, sample instances and counters used in the statements *)

(** The run in flight on [animatedHeight], if any, is one of the two that
    [setModalVisibility] starts. *)
Definition timing_ok (cfg : Config) (s : Sheet) : Prop :=
  forall t, heightTiming s = Some t ->
    t = mkTiming (height cfg) PinHeight \/
    t = mkTiming (minClosingHeight cfg) FinishClose.

(** The panel holds the responder only if it was allowed to claim it and
    is still in the tree. *)
Definition responder_ok (cfg : Config) (s : Sheet) : Prop :=
  responder s = true -> closeOnDragDown cfg = true /\ modalVisible s = true.

Definition closedView (cfg : Config) : Observed :=
  mkObserved false (minClosingHeight cfg) (0, 0).

Definition Inv (cfg : Config) (s : Sheet) : Prop :=
  fst (pan s) = 0 /\
  responder_ok cfg s /\
  timing_ok cfg s /\
  Forall (fun o => o = closedView cfg) (onCloseCalls s).

Ltac unfold_handlers :=
  unfold step, commit, mounted, deliver, open, close, onPress, onRequestClose,
    onPanResponderMove, onPanResponderRelease, onStartShouldSetPanResponder,
    setModalVisibility, complete, call_onClose, observe, timing_start,
    timing_clear, animatedHeight_setValue, pan_setValue, spring_start,
    setResponder, setModalVisible in *.

Ltac case_if :=
  match goal with
  | |- context [if ?b then _ else _] => destruct b eqn:?
  | |- context [match ?o with Some _ => _ | None => _ end] => destruct o eqn:?
  | |- context [match ?k with PinHeight => _ | FinishClose => _ end] =>
      destruct k eqn:?
  end.

(** [<BottomSheet onClose={...} />] *)
Definition plainSheet : Config := destructure (noProps true).

(** [<BottomSheet closeOnDragDown onClose={...} />] *)
Definition draggableSheet : Config :=
  destructure (mkProps None None None None (Some true) None None true).

(** [<BottomSheet minClosingHeight={50} onClose={...} />] *)
Definition tallClosingSheet : Config :=
  destructure (mkProps None None (Some 50) None None None None true).

(** [<BottomSheet height={100} onClose={...} />] *)
Definition shortSheet : Config :=
  destructure (mkProps None (Some 100) None None None None None true).

(** [<BottomSheet closeOnPressMask={false} closeOnPressBack={false}
    onClose={...} />] *)
Definition stubborn : Config :=
  destructure (mkProps None None None None None (Some false) (Some false) true).

(** An opened, fully grown draggable sheet whose panel holds a gesture. *)
Definition dragging : Sheet :=
  run draggableSheet [CallOpen; HeightEnd; TouchStart] initial.

(** Whether delivering [e] in state [s] calls [setModalVisibility(false)]:
    [close()] itself, the mask and the back button when enabled, and a
    release past the threshold. *)
Definition closeRequested (cfg : Config) (s : Sheet) (e : Event) : bool :=
  match e with
  | CallClose => true
  | PressMask => mounted s && closeOnPressMask cfg
  | RequestClose => mounted s && closeOnPressBack cfg
  | TouchRelease dy =>
      mounted s && responder s &&
      (if Qlt_le_dec (height cfg / 4 - dy) 0 then true else false)
  | _ => false
  end.

Fixpoint closeRequests (cfg : Config) (es : list Event) (s : Sheet) : nat :=
  match es with
  | [] => 0
  | e :: es' =>
      (if closeRequested cfg s e then 1 else 0)
      + closeRequests cfg es' (step cfg s e)
  end.

(** A close run in flight is a call of [onClose] still owed. *)
Definition pendingClose (s : Sheet) : nat :=
  match heightTiming s with
  | Some t => match onEnd t with FinishClose => 1 | PinHeight => 0 end
  | None => 0
  end.

(** The sheet after one full open-close cycle. *)
Definition closedAgain : Sheet :=
  run plainSheet [CallOpen; HeightEnd; CallClose; HeightEnd] initial.

(** ** Sequences of drag samples *)

(** What one sample leaves in [pan.y]: the sample when it points downward,
    the value already there otherwise (line 64). *)
Definition follow (y dy : Q) : Q :=
  if Qlt_le_dec 0 dy then dy else y.

Definition lastDownward (dys : list Q) (y : Q) : Q :=
  fold_left follow dys y.

(** Events that start no run on [animatedHeight] and complete none. *)
Definition passive (e : Event) : bool :=
  match e with
  | TouchStart | TouchMove _ | HeightFrame _ | SpringEnd => true
  | _ => false
  end.

(** ** Re-rendering with new props (hooks of lines 58-76, 96-128, 152-184) *)

(** An instance across renders.  Each closure of the component is named by
    the destructured props of the render that built it. *)
Record Instance : Type := mkInstance {
  props : Config;                        (* of the latest render *)
  panResponder_current : option Config;  (* useRef(): undefined until the effect runs *)
  panHandlers : option Config;           (* spread on the panel by the latest render *)
  timingClosure : Config;                (* whose callback the run in flight carries *)
  sheet : Sheet
}.

(** The first render reads [panResponder.current] while it is still
    undefined, so it renders no panel; its effect then creates the
    responder.  This is the first instance of the program, see [initial]. *)
Definition mount (cfg : Config) : Instance :=
  {| props := cfg;
     panResponder_current := Some cfg;
     panHandlers := None;
     timingClosure := cfg;
     sheet := initial |}.

(** A later instance, which finds [a] and [p] in the shared values. *)
Definition mountAt (cfg : Config) (a : Q) (p : Q * Q) : Instance :=
  {| props := cfg;
     panResponder_current := Some cfg;
     panHandlers := None;
     timingClosure := cfg;
     sheet := mountedAt a p |}.

(** The dependency list [[pan, height]] of the effect (line 76): [pan] is the
    same object on every render, so the effect runs again only when [height]
    differs from that of the previous render. *)
Definition depsChanged (prev next : Config) : bool :=
  negb (Qeq_bool (height prev) (height next)).

(** A later render with props [cfg']: it spreads the handlers of the
    responder it finds in the ref, and afterwards its effect replaces the
    responder if the dependencies changed. *)
Definition render (cfg' : Config) (i : Instance) : Instance :=
  {| props := cfg';
     panResponder_current :=
       if depsChanged (props i) cfg' then Some cfg' else panResponder_current i;
     panHandlers := panResponder_current i;
     timingClosure := timingClosure i;
     sheet := sheet i |}.

(** Which render's closure an event runs: the gesture handlers are those on
    the panel, a completion callback is that of the run, and the handle, the
    mask and the back button are those of the latest render
    ([setModalVisibility] lists all it reads among its dependencies). *)
Definition closureFor (i : Instance) (e : Event) : option Config :=
  match e with
  | TouchStart | TouchMove _ | TouchRelease _ => panHandlers i
  | HeightEnd => Some (timingClosure i)
  | _ => Some (props i)
  end.

(** Whether delivering [e] calls [setModalVisibility] at all. *)
Definition startsRun (cfg : Config) (s : Sheet) (e : Event) : bool :=
  match e with
  | CallOpen => true
  | _ => closeRequested cfg s e
  end.

(** An event on the instance; a change of [modalVisible] is a state change
    and makes the component render again with the props it has. *)
Definition handle (i : Instance) (e : Event) : Instance :=
  match closureFor i e with
  | None => i
  | Some c =>
      let s' := step c (sheet i) e in
      let i' :=
        {| props := props i;
           panResponder_current := panResponder_current i;
           panHandlers := panHandlers i;
           timingClosure :=
             if startsRun c (sheet i) e then c else timingClosure i;
           sheet := s' |} in
      if Bool.eqb (modalVisible (sheet i)) (modalVisible s')
      then i' else render (props i) i'
  end.

Inductive Input : Type :=
| Rerender (cfg' : Config)
| Fire (e : Event).

Definition advance (i : Instance) (inp : Input) : Instance :=
  match inp with
  | Rerender cfg' => render cfg' i
  | Fire e => handle i e
  end.

Definition play (inps : list Input) (i : Instance) : Instance :=
  fold_left advance inps i.

Definition events_of (inps : list Input) : list Event :=
  flat_map (fun inp => match inp with Fire e => [e] | Rerender _ => [] end) inps.

(** Every re-render of the history passes props that satisfy [P]. *)
Definition rerendersWith (P : Config -> Prop) (inps : list Input) : Prop :=
  Forall (fun inp => match inp with Rerender c => P c | Fire _ => True end) inps.

Definition isTouch (e : Event) : bool :=
  match e with
  | TouchStart | TouchMove _ | TouchRelease _ => true
  | _ => false
  end.

(** The fixed-props model and the instance agree on [cfg]. *)
Definition settled (cfg : Config) (i : Instance) : Prop :=
  props i = cfg /\
  panResponder_current i = Some cfg /\
  timingClosure i = cfg /\
  (panHandlers i = Some cfg \/
   (panHandlers i = None /\ modalVisible (sheet i) = false)) /\
  reachable cfg (sheet i).

(** The responder and the handlers on the panel are still those of the props
    [cfg], and [height] has not moved away from that of [cfg]. *)
Definition stale (cfg : Config) (i : Instance) : Prop :=
  height (props i) == height cfg /\
  panResponder_current i = Some cfg /\
  (panHandlers i = None \/ panHandlers i = Some cfg).

(** Nothing has dragged the sheet since it was mounted with [pan] at [p]:
    [pan] is still [p], or a completed close has reset it. *)
Definition undragged (p : Q * Q) (s : Sheet) : Prop :=
  responder s = false /\ panSpring s = false /\
  (pan s = p \/ pan s = (0, 0)).

(** The responder exists, and the panel is drawn whenever the modal shows. *)
Definition panelReady (i : Instance) : Prop :=
  panResponder_current i <> None /\
  (modalVisible (sheet i) = true -> panHandlers i <> None).

(** A sheet mounted with [closeOnDragDown], re-rendered without it, then
    opened to its full height. *)
Definition switchedOff : Instance :=
  play [Rerender plainSheet; Fire CallOpen; Fire HeightEnd]
    (mount draggableSheet).

(** ** Invariants of the reachable states *)

Lemma run_snoc cfg es e s :
  run cfg (es ++ [e]) s = step cfg (run cfg es s) e.
Proof. unfold run. now rewrite fold_left_app. Qed.

Lemma run_app cfg es1 es2 s :
  run cfg (es1 ++ es2) s = run cfg es2 (run cfg es1 s).
Proof. unfold run. now rewrite fold_left_app. Qed.

Lemma reachable_initial cfg : reachable cfg initial.
Proof. now exists []. Qed.

Lemma reachable_step cfg s e :
  reachable cfg s -> reachable cfg (step cfg s e).
Proof.
  intros [es ->]. exists (es ++ [e]). now rewrite run_snoc.
Qed.

Lemma reachable_run cfg es s :
  reachable cfg s -> reachable cfg (run cfg es s).
Proof.
  intros [es0 ->]. exists (es0 ++ es). now rewrite run_app.
Qed.

(** Any property that holds initially and is kept by every step holds of
    every reachable state. *)
Lemma reachable_ind (cfg : Config) (P : Sheet -> Prop) :
  P initial ->
  (forall s e, P s -> P (step cfg s e)) ->
  forall s, reachable cfg s -> P s.
Proof.
  intros H0 Hstep s [es ->].
  induction es as [|e es IH] using rev_ind.
  - exact H0.
  - rewrite run_snoc. now apply Hstep.
Qed.

Lemma Inv_initial cfg : Inv cfg initial.
Proof.
  unfold Inv, responder_ok, timing_ok; simpl.
  repeat split; try discriminate; auto.
Qed.

Lemma Inv_step cfg s e : Inv cfg s -> Inv cfg (step cfg s e).
Proof.
  intros (Hx & Hr & Ht & Hc).
  unfold Inv, responder_ok, timing_ok, closedView in *.
  destruct s as [vis ah [px py] tm sp rs calls]; simpl in *.
  destruct e; unfold_handlers; simpl;
    repeat (case_if; simpl in *; subst);
    repeat split; intros;
    repeat match goal with
    | H : Some _ = Some _ |- _ => injection H as H; subst
    | H : _ && _ = true |- _ => apply andb_prop in H; destruct H
    end;
    simpl in *; subst;
    try discriminate; try congruence; auto;
    try (now apply Hr);
    try (constructor; auto).
  destruct (Ht t eq_refl) as [-> | ->]; simpl in *; [discriminate | reflexivity].
Qed.

Lemma reachable_Inv cfg s : reachable cfg s -> Inv cfg s.
Proof.
  apply reachable_ind; [apply Inv_initial | intros; now apply Inv_step].
Qed.

Lemma commit_mounted s : modalVisible s = true -> commit s = s.
Proof. unfold commit, mounted. now intros ->. Qed.

Lemma commit_idle s : responder s = false -> commit s = s.
Proof.
  unfold commit, mounted, setResponder. destruct s; simpl.
  intros ->. now destruct modalVisible0.
Qed.

(** ** Scenarios *)

Lemma dragging_reachable : reachable draggableSheet dragging.
Proof. now exists [CallOpen; HeightEnd; TouchStart]. Qed.

Example scenario_A :
  heightTiming (step draggableSheet dragging (TouchRelease 100))
  = Some (mkTiming 0 FinishClose).
Proof. reflexivity. Qed.

Example scenario_B :
  step draggableSheet dragging (TouchRelease 50)
  = setResponder false (spring_start dragging).
Proof. reflexivity. Qed.

Example scenario_E :
  let cfg := destructure (mkProps None (Some 0) None None (Some true) None None true) in
  heightTiming (step cfg (run cfg [CallOpen; HeightEnd; TouchStart] initial)
                  (TouchRelease 1))
  = Some (mkTiming 0 FinishClose).
Proof. reflexivity. Qed.

Example scenario_C :
  step stubborn (step stubborn initial CallOpen) PressMask
  = step stubborn initial CallOpen.
Proof. reflexivity. Qed.

Example scenario_D :
  step plainSheet (step plainSheet initial CallOpen) RequestClose
  = step plainSheet (step plainSheet initial CallOpen) CallClose.
Proof. reflexivity. Qed.

(** The move handler itself has no guard on the sheet's state: what keeps
    samples away from a closed sheet is that its panel is not rendered. *)
Example move_handler_unguarded :
  pan (onPanResponderMove 5 initial) = (0, 5)
  /\ step draggableSheet initial (TouchMove 5) = initial.
Proof. split; reflexivity. Qed.

(** A full cycle on the draggable sheet: open, drag, release past the
    threshold, close run completes. *)
Example drag_to_dismiss :
  run draggableSheet
    [CallOpen; HeightEnd; TouchStart; TouchMove 30; TouchMove 100;
     TouchRelease 100; HeightFrame 130; HeightEnd] initial
  = {| modalVisible := false;
       animatedHeight := 0;
       pan := (0, 0);
       heightTiming := None;
       panSpring := false;
       responder := false;
       onCloseCalls := [closedView draggableSheet] |}.
Proof. reflexivity. Qed.

(** ** The gesture tracker *)

Lemma step_release cfg s dy :
  modalVisible s = true -> responder s = true ->
  step cfg s (TouchRelease dy)
  = setResponder false (onPanResponderRelease cfg dy s).
Proof.
  intros Hv Hr. unfold step, deliver, mounted. rewrite Hv, Hr. simpl.
  apply commit_mounted.
  unfold onPanResponderRelease, setModalVisibility.
  destruct (Qlt_le_dec (height cfg / 4 - dy) 0); exact Hv.
Qed.

(** C1: a gesture that ends with cumulative delta [dy] commits to closing
    exactly when [height / 4 - dy < 0], that is [dy > height / 4]: it then
    calls [setModalVisibility(false)], and the completion of that run leaves
    the sheet closed with [onClose] called once.  Otherwise it starts the
    spring of [pan] to (0,0), starts no height run, and the sheet stays
    open with [pan] back at (0,0) when the spring ends. *)
Theorem release_commits_past_quarter_height cfg s dy :
  modalVisible s = true -> responder s = true ->
  let s' := step cfg s (TouchRelease dy) in
  (height cfg / 4 - dy < 0 <-> height cfg / 4 < dy) /\
  (height cfg / 4 < dy ->
     s' = setResponder false (setModalVisibility cfg false s) /\
     modalVisible (step cfg s' HeightEnd) = false /\
     onCloseCalls (step cfg s' HeightEnd)
     = (if onClose cfg then [closedView cfg] else []) ++ onCloseCalls s) /\
  (dy <= height cfg / 4 ->
     s' = setResponder false (spring_start s) /\
     heightTiming s' = heightTiming s /\
     onCloseCalls s' = onCloseCalls s /\
     modalVisible s' = true /\
     pan (step cfg s' SpringEnd) = (0, 0) /\
     modalVisible (step cfg s' SpringEnd) = true).
Proof.
  intros Hv Hr s'. split; [lra|].
  subst s'. rewrite (step_release cfg s dy Hv Hr).
  unfold onPanResponderRelease.
  split; intros Hdy;
    (destruct (Qlt_le_dec (height cfg / 4 - dy) 0) as [Hlt | Hge]; [|]);
    try lra.
  - clear Hdy Hlt. split; [reflexivity|].
    destruct s; simpl in Hv, Hr; subst.
    unfold step, commit, mounted, deliver, complete, call_onClose; simpl.
    destruct (onClose cfg); simpl; split; reflexivity.
  - clear Hdy Hge. destruct s; simpl in Hv, Hr; subst.
    unfold step, commit, mounted, deliver; simpl.
    repeat split; reflexivity.
Qed.

Lemma release_commits_past_quarter_height_witness :
  let s' := step draggableSheet dragging (TouchRelease 100) in
  (260 / 4 - 100 < 0 <-> 260 / 4 < 100) /\
  (260 / 4 < 100 ->
     s' = setResponder false (setModalVisibility draggableSheet false dragging) /\
     modalVisible (step draggableSheet s' HeightEnd) = false /\
     onCloseCalls (step draggableSheet s' HeightEnd)
     = [closedView draggableSheet] ++ onCloseCalls dragging) /\
  (100 <= 260 / 4 ->
     s' = setResponder false (spring_start dragging) /\
     heightTiming s' = heightTiming dragging /\
     onCloseCalls s' = onCloseCalls dragging /\
     modalVisible s' = true /\
     pan (step draggableSheet s' SpringEnd) = (0, 0) /\
     modalVisible (step draggableSheet s' SpringEnd) = true).
Proof.
  apply (release_commits_past_quarter_height draggableSheet dragging 100);
    reflexivity.
Defined.

(** C5: a drag sample with [dy > 0] writes exactly [dy] into [pan.y], with
    [pan.x] staying 0 and nothing else about the sheet's visibility, height
    or callbacks touched; a sample with [dy <= 0] changes nothing.  This is
    what a sample delivered to the panel holding the gesture does. *)
Theorem move_follows_finger cfg s dy :
  reachable cfg s ->
  (0 < dy ->
     pan (onPanResponderMove dy s) = (0, dy) /\
     modalVisible (onPanResponderMove dy s) = modalVisible s /\
     animatedHeight (onPanResponderMove dy s) = animatedHeight s /\
     heightTiming (onPanResponderMove dy s) = heightTiming s /\
     onCloseCalls (onPanResponderMove dy s) = onCloseCalls s) /\
  (dy <= 0 -> onPanResponderMove dy s = s) /\
  (modalVisible s = true -> responder s = true ->
     step cfg s (TouchMove dy) = onPanResponderMove dy s).
Proof.
  intros Hreach. destruct (reachable_Inv _ _ Hreach) as (Hx & _).
  unfold onPanResponderMove.
  split; [|split].
  - intros Hdy. destruct (Qlt_le_dec 0 dy); [|lra].
    simpl. now rewrite Hx.
  - intros Hdy. destruct (Qlt_le_dec 0 dy); [lra|reflexivity].
  - intros Hv Hr. unfold step, deliver, mounted. rewrite Hv, Hr. simpl.
    apply commit_mounted. unfold onPanResponderMove.
    now destruct (Qlt_le_dec 0 dy).
Qed.

Lemma move_follows_finger_witness :
  pan (step draggableSheet dragging (TouchMove 42)) = (0, 42) /\
  step draggableSheet dragging (TouchMove (-3)) = dragging.
Proof.
  destruct (move_follows_finger draggableSheet dragging 42 dragging_reachable)
    as (Hdown & _ & Hstep).
  destruct (move_follows_finger draggableSheet dragging (-3) dragging_reachable)
    as (_ & Hup & Hstep').
  rewrite Hstep, Hstep' by reflexivity.
  split; [apply Hdown | apply Hup]; lra.
Defined.

(** With props that never change during the life of the instance: without
    [closeOnDragDown], or while the sheet is closed, a gesture start, a drag
    sample and a release each leave the whole state as it was.  What
    happens when [closeOnDragDown] changes is settled further down, on the
    instance across renders. *)
Lemma gestures_ignored_with_fixed_props cfg s :
  reachable cfg s ->
  closeOnDragDown cfg = false \/ modalVisible s = false ->
  step cfg s TouchStart = s /\
  (forall dy, step cfg s (TouchMove dy) = s) /\
  (forall dy, step cfg s (TouchRelease dy) = s).
Proof.
  intros Hreach Hoff.
  destruct (reachable_Inv _ _ Hreach) as (_ & Hresp & _).
  assert (Hr : responder s = false).
  { destruct (responder s) eqn:E; [|reflexivity].
    destruct (Hresp E) as [Hc Hv]. destruct Hoff; congruence. }
  assert (Hclaim : mounted s && onStartShouldSetPanResponder cfg = false).
  { unfold mounted, onStartShouldSetPanResponder.
    destruct Hoff as [-> | ->]; [apply andb_false_r | reflexivity]. }
  unfold step, deliver. rewrite Hclaim, Hr, andb_false_r.
  repeat split; intros; now apply commit_idle.
Qed.

(** ** The visibility controller *)

(** C2: when a close run completes, the same step that delivers the
    completion calls [onClose], and what the callback observes is already
    the closed sheet: [modalVisible] false, [pan] at (0,0) and
    [animatedHeight] at [minClosingHeight].  No run is left in flight, and
    every call of [onClose] recorded so far has observed the same. *)
Theorem close_callback_sees_closed_sheet cfg s t :
  reachable cfg s ->
  heightTiming s = Some t -> onEnd t = FinishClose ->
  let s' := step cfg s HeightEnd in
  modalVisible s' = false /\
  pan s' = (0, 0) /\
  animatedHeight s' = minClosingHeight cfg /\
  heightTiming s' = None /\
  onCloseCalls s'
  = (if onClose cfg then [observe s'] else []) ++ onCloseCalls s /\
  Forall (fun o => o = closedView cfg) (onCloseCalls s').
Proof.
  intros Hreach Ht Hk s'.
  assert (Hinv' : Inv cfg s') by (apply reachable_Inv, reachable_step, Hreach).
  destruct (reachable_Inv _ _ Hreach) as (_ & _ & Htm & _).
  destruct (Htm t Ht) as [-> | ->]; [discriminate Hk|].
  destruct Hinv' as (_ & _ & _ & Hcalls).
  split; [|split; [|split; [|split; [|split]]]]; try exact Hcalls;
    subst s'; clear Hcalls Htm Hreach Hk;
    destruct s; simpl in Ht; subst;
    unfold step, commit, mounted, deliver, complete, call_onClose; simpl;
    destruct (onClose cfg); reflexivity.
Qed.

Lemma close_callback_sees_closed_sheet_witness :
  let s := run plainSheet [CallOpen; HeightEnd; CallClose; HeightFrame 120] initial in
  let s' := step plainSheet s HeightEnd in
  modalVisible s' = false /\
  pan s' = (0, 0) /\
  animatedHeight s' = minClosingHeight plainSheet /\
  heightTiming s' = None /\
  onCloseCalls s' = [observe s'] ++ onCloseCalls s /\
  Forall (fun o => o = closedView plainSheet) (onCloseCalls s').
Proof.
  apply (close_callback_sees_closed_sheet plainSheet
           (run plainSheet [CallOpen; HeightEnd; CallClose; HeightFrame 120] initial)
           (mkTiming 0 FinishClose)).
  - now exists [CallOpen; HeightEnd; CallClose; HeightFrame 120].
  - reflexivity.
  - reflexivity.
Defined.

Lemma deliver_HeightEnd cfg s t :
  heightTiming s = Some t ->
  deliver cfg s HeightEnd = finishRun cfg (toValue t) s.
Proof. intros Ht. unfold deliver, finishRun. now rewrite Ht. Qed.

(** C9: [open()] sets [modalVisible] at once, leaving [animatedHeight] where
    it was with the opening run in flight; frames of that run do not change
    [modalVisible].  When the run completes, its callback sets
    [animatedHeight] to exactly [height], whatever value [v] the last frame
    of the run has written, and the sheet is still visible.  The callback
    of a closing run writes nothing to [animatedHeight]: a completed close
    leaves the value of the last frame, which is exactly [minClosingHeight]
    for a run that has reached its target. *)
Theorem open_flips_state_then_pins_height cfg s :
  let s1 := step cfg s CallOpen in
  let s2 := step cfg s1 HeightEnd in
  let s3 := step cfg (step cfg s CallClose) HeightEnd in
  modalVisible s1 = true /\
  animatedHeight s1 = animatedHeight s /\
  heightTiming s1 = Some (mkTiming (height cfg) PinHeight) /\
  (forall v, modalVisible (step cfg s1 (HeightFrame v)) = true) /\
  (forall v,
     animatedHeight (finishRun cfg v s1) = height cfg /\
     modalVisible (finishRun cfg v s1) = true /\
     heightTiming (finishRun cfg v s1) = None) /\
  s2 = finishRun cfg (height cfg) s1 /\
  animatedHeight s2 = height cfg /\
  modalVisible s2 = true /\
  heightTiming s2 = None /\
  (forall v, animatedHeight (finishRun cfg v (step cfg s CallClose)) = v) /\
  s3 = commit (finishRun cfg (minClosingHeight cfg) (step cfg s CallClose)) /\
  animatedHeight s3 = minClosingHeight cfg /\
  modalVisible s3 = false.
Proof.
  destruct s as [vis ah p tm sp rs calls].
  unfold step, commit, mounted, deliver, finishRun, open, close,
    setModalVisibility, complete, call_onClose; simpl.
  repeat split; try reflexivity;
    try (intros v; destruct (between ah (height cfg) v); reflexivity);
    destruct vis; simpl; destruct (onClose cfg); reflexivity.
Qed.

(** ** Mask and back button *)

(** C8: on an open sheet a press on the mask does what [close()] does when
    [closeOnPressMask] is set and changes nothing when it is not, and a back
    request does what [close()] does when [closeOnPressBack] is set and
    changes nothing when it is not. *)
Theorem mask_and_back_close_only_if_enabled cfg s :
  modalVisible s = true ->
  (closeOnPressMask cfg = true ->
     onPress cfg s = close cfg s /\
     step cfg s PressMask = step cfg s CallClose) /\
  (closeOnPressMask cfg = false ->
     onPress cfg s = s /\ step cfg s PressMask = s) /\
  (closeOnPressBack cfg = true ->
     onRequestClose cfg s = close cfg s /\
     step cfg s RequestClose = step cfg s CallClose) /\
  (closeOnPressBack cfg = false ->
     onRequestClose cfg s = s /\ step cfg s RequestClose = s).
Proof.
  intros Hv.
  unfold step, deliver, mounted, onPress, onRequestClose. rewrite Hv.
  split; [|split; [|split]]; intros ->; split;
    try reflexivity; now apply commit_mounted.
Qed.

Lemma mask_and_back_close_only_if_enabled_witness :
  step plainSheet (step plainSheet initial CallOpen) PressMask
  = step plainSheet (step plainSheet initial CallOpen) CallClose /\
  step stubborn (step stubborn initial CallOpen) PressMask
  = step stubborn initial CallOpen /\
  step plainSheet (step plainSheet initial CallOpen) RequestClose
  = step plainSheet (step plainSheet initial CallOpen) CallClose /\
  step stubborn (step stubborn initial CallOpen) RequestClose
  = step stubborn initial CallOpen.
Proof.
  destruct (mask_and_back_close_only_if_enabled plainSheet
              (step plainSheet initial CallOpen) eq_refl)
    as (Hmask & _ & Hback & _).
  destruct (mask_and_back_close_only_if_enabled stubborn
              (step stubborn initial CallOpen) eq_refl)
    as (_ & Hmask' & _ & Hback').
  split; [|split; [|split]].
  - apply Hmask. reflexivity.
  - apply Hmask'. reflexivity.
  - apply Hback. reflexivity.
  - apply Hback'. reflexivity.
Defined.

(** ** Defaults *)

Lemma quarter_of_260 : 260 / 4 == 65.
Proof. reflexivity. Qed.

(** C10: with every optional prop omitted the component works with
    [animationType = 'none'], [height = 260], [minClosingHeight = 0],
    [duration = 300], [closeOnDragDown = false], [closeOnPressMask = true]
    and [closeOnPressBack = true], and each default applies on its own when
    only that prop is omitted.  The behaviour follows the defaulted values:
    the release threshold is 65, the runs target 260 and 0, the mask and
    the back button close, and the panel never claims a gesture. *)
Theorem omitted_props_take_defaults (b : bool) :
  destructure (noProps b) = mkConfig none 260 0 300 false true true b /\
  (forall p,
     (props_animationType p = None -> animationType (destructure p) = none) /\
     (props_height p = None -> height (destructure p) = 260) /\
     (props_minClosingHeight p = None -> minClosingHeight (destructure p) = 0) /\
     (props_duration p = None -> duration (destructure p) = 300) /\
     (props_closeOnDragDown p = None -> closeOnDragDown (destructure p) = false) /\
     (props_closeOnPressMask p = None -> closeOnPressMask (destructure p) = true) /\
     (props_closeOnPressBack p = None -> closeOnPressBack (destructure p) = true)) /\
  (forall s dy,
     let cfg := destructure (noProps b) in
     (65 < dy -> onPanResponderRelease cfg dy s = setModalVisibility cfg false s) /\
     (dy <= 65 -> onPanResponderRelease cfg dy s = spring_start s) /\
     heightTiming (open cfg s) = Some (mkTiming 260 PinHeight) /\
     heightTiming (close cfg s) = Some (mkTiming 0 FinishClose) /\
     onPress cfg s = close cfg s /\
     onRequestClose cfg s = close cfg s /\
     onStartShouldSetPanResponder cfg = false).
Proof.
  split; [reflexivity|]. split.
  - intros [a h m d dd pm pb oc]; simpl.
    repeat split; intros ->; reflexivity.
  - intros s dy cfg. subst cfg.
    unfold onPanResponderRelease.
    change (height (destructure (noProps b))) with 260.
    split; [|split; [|repeat split]].
    + intros Hdy.
      destruct (Qlt_le_dec (260 / 4 - dy) 0) as [_ | Hge]; [reflexivity|].
      exfalso. rewrite quarter_of_260 in Hge. lra.
    + intros Hdy.
      destruct (Qlt_le_dec (260 / 4 - dy) 0) as [Hlt | _]; [|reflexivity].
      exfalso. rewrite quarter_of_260 in Hlt. lra.
Qed.

(** ** Closing a sheet that is already closed *)

(** C3, as stated, fails: [close()] on the freshly created, closed sheet
    starts a close run, and [onClose] is called when it completes. *)
Lemma close_when_closed_calls_onClose :
  modalVisible initial = false /\
  heightTiming initial = None /\
  ~ (forall es,
       onCloseCalls (run plainSheet (CallClose :: es) initial)
       = onCloseCalls (run plainSheet es initial)).
Proof.
  split; [reflexivity|]. split; [reflexivity|].
  intros H. specialize (H [HeightEnd]). discriminate H.
Qed.

(** C3, amended: [close()] on a closed sheet changes neither
    [modalVisible], [pan], [animatedHeight] nor the calls of [onClose] at
    once, but it starts a close run towards [minClosingHeight]; when that
    run completes the sheet is still closed, [pan] is (0,0),
    [animatedHeight] is [minClosingHeight], and [onClose], when supplied,
    has been called once more. *)
Theorem close_when_closed_reruns_close cfg s :
  modalVisible s = false ->
  let s1 := step cfg s CallClose in
  let s2 := step cfg s1 HeightEnd in
  (modalVisible s1 = false /\
   pan s1 = pan s /\
   animatedHeight s1 = animatedHeight s /\
   onCloseCalls s1 = onCloseCalls s /\
   heightTiming s1 = Some (mkTiming (minClosingHeight cfg) FinishClose)) /\
  (modalVisible s2 = false /\
   pan s2 = (0, 0) /\
   animatedHeight s2 = minClosingHeight cfg /\
   heightTiming s2 = None /\
   onCloseCalls s2
   = (if onClose cfg then [closedView cfg] else []) ++ onCloseCalls s).
Proof.
  intros Hv. destruct s as [vis ah p tm sp rs calls]; simpl in Hv; subst vis.
  unfold step, commit, mounted, deliver, close, setModalVisibility,
    complete, call_onClose; simpl.
  destruct (onClose cfg); simpl; repeat split; reflexivity.
Qed.

Lemma close_when_closed_reruns_close_witness :
  let s1 := step plainSheet initial CallClose in
  let s2 := step plainSheet s1 HeightEnd in
  (modalVisible s1 = false /\
   pan s1 = pan initial /\
   animatedHeight s1 = animatedHeight initial /\
   onCloseCalls s1 = onCloseCalls initial /\
   heightTiming s1 = Some (mkTiming 0 FinishClose)) /\
  (modalVisible s2 = false /\
   pan s2 = (0, 0) /\
   animatedHeight s2 = 0 /\
   heightTiming s2 = None /\
   onCloseCalls s2 = [closedView plainSheet] ++ onCloseCalls initial).
Proof.
  apply (close_when_closed_reruns_close plainSheet initial). reflexivity.
Defined.

(** ** How often [onClose] is called *)

Lemma step_owed cfg s e :
  (length (onCloseCalls (step cfg s e)) + pendingClose (step cfg s e)
   <= length (onCloseCalls s) + pendingClose s
      + (if closeRequested cfg s e then 1 else 0))%nat.
Proof.
  destruct s as [vis ah p tm sp rs calls].
  destruct e; unfold closeRequested, pendingClose; unfold_handlers; simpl;
    repeat (case_if; simpl); try lia.
Qed.

Lemma run_owed cfg es : forall s,
  (length (onCloseCalls (run cfg es s)) + pendingClose (run cfg es s)
   <= length (onCloseCalls s) + pendingClose s + closeRequests cfg es s)%nat.
Proof.
  induction es as [|e es IH]; intros s; simpl.
  - lia.
  - specialize (IH (step cfg s e)). pose proof (step_owed cfg s e).
    change (run cfg (e :: es) s) with (run cfg es (step cfg s e)). lia.
Qed.

(** C4, as stated, fails: after one open-close cycle the sheet is closed
    and at rest with [onClose] called once; a further [close()] makes
    [onClose] fire a second time, with no [open()] in between. *)
Lemma onClose_fires_from_closed_rest :
  modalVisible closedAgain = false /\
  heightTiming closedAgain = None /\
  panSpring closedAgain = false /\
  length (onCloseCalls closedAgain) = 1%nat /\
  length (onCloseCalls (run plainSheet [CallClose; HeightEnd] closedAgain))
  = 2%nat.
Proof. repeat split. Qed.

(** C4, amended: [onClose] is called only by the completion of a run on
    [animatedHeight], at most once per completion and exactly once when the
    completed run is a close run and [onClose] is supplied; the completion
    leaves no run in flight.  Hence over any history of an instance the
    calls of [onClose] never outnumber the close requests.  A release at or
    below the threshold is no close request: it starts no height run and
    neither it nor the end of its spring calls [onClose]. *)
Theorem onClose_once_per_completed_close cfg :
  (forall es,
     (length (onCloseCalls (run cfg es initial))
      <= closeRequests cfg es initial)%nat) /\
  (forall s e, e <> HeightEnd -> onCloseCalls (step cfg s e) = onCloseCalls s) /\
  (forall s,
     heightTiming (step cfg s HeightEnd) = None /\
     (length (onCloseCalls (step cfg s HeightEnd))
      <= S (length (onCloseCalls s)))%nat) /\
  (forall s t,
     heightTiming s = Some t -> onEnd t = FinishClose -> onClose cfg = true ->
     length (onCloseCalls (step cfg s HeightEnd))
     = S (length (onCloseCalls s))) /\
  (forall s dy,
     dy <= height cfg / 4 ->
     closeRequested cfg s (TouchRelease dy) = false /\
     heightTiming (step cfg s (TouchRelease dy)) = heightTiming s /\
     onCloseCalls (step cfg (step cfg s (TouchRelease dy)) SpringEnd)
     = onCloseCalls s).
Proof.
  split; [|split; [|split; [|split]]].
  - intros es. pose proof (run_owed cfg es initial) as H.
    change (pendingClose initial) with 0%nat in H.
    change (onCloseCalls initial) with (@nil Observed) in H.
    simpl length in H. lia.
  - intros [vis ah p tm sp rs calls] e He.
    destruct e; try congruence; unfold_handlers; simpl;
      repeat (case_if; simpl); reflexivity.
  - intros [vis ah p tm sp rs calls].
    unfold_handlers; simpl; repeat (case_if; simpl); split;
      try reflexivity; lia.
  - intros [vis ah p tm sp rs calls] t Ht Hk Hon. simpl in Ht. subst tm.
    unfold_handlers; simpl. rewrite Hk, Hon. simpl. reflexivity.
  - intros [vis ah p tm sp rs calls] dy Hdy.
    unfold closeRequested; unfold_handlers; simpl.
    destruct (Qlt_le_dec (height cfg / 4 - dy) 0) as [Hlt | _];
      [exfalso; lra|].
    rewrite andb_false_r.
    destruct (vis && rs); simpl; repeat (case_if; simpl);
      repeat split; reflexivity.
Qed.

(** ** The range of [animatedHeight] *)

Lemma between_range lo hi a b v :
  lo <= a <= hi -> lo <= b <= hi -> between a b v = true -> lo <= v <= hi.
Proof.
  intros Ha Hb H. unfold between in H.
  apply orb_prop in H. destruct H as [H | H];
    apply andb_prop in H; destruct H as [H1 H2];
    apply Qle_bool_iff in H1; apply Qle_bool_iff in H2; lra.
Qed.

(** For any floor [lo] not above [minClosingHeight], a step keeps
    [animatedHeight] between [lo] and [height]. *)
Lemma range_step cfg lo s e :
  lo <= minClosingHeight cfg -> minClosingHeight cfg <= height cfg ->
  timing_ok cfg s ->
  lo <= animatedHeight s <= height cfg ->
  lo <= animatedHeight (step cfg s e) <= height cfg.
Proof.
  intros Hlo Hhi Htm Hah.
  assert (Htarget : forall t, heightTiming s = Some t ->
                      lo <= toValue t <= height cfg).
  { intros t Ht. destruct (Htm t Ht) as [-> | ->]; simpl; lra. }
  assert (Hpin : lo <= height cfg <= height cfg) by lra.
  destruct s as [vis ah p tm sp rs calls]; simpl in *.
  destruct e; unfold_handlers; simpl;
    repeat (case_if; simpl); try exact Hah; try exact Hpin;
    try (now apply Htarget);
    (eapply between_range; [exact Hah | now apply Htarget | eassumption]).
Qed.

Lemma timing_ok_step cfg s e : timing_ok cfg s -> timing_ok cfg (step cfg s e).
Proof.
  intros Ht. unfold timing_ok in *.
  destruct s as [vis ah p tm sp rs calls]; simpl in *.
  destruct e;
    unfold step, commit, mounted, deliver, open, close, onPress,
      onRequestClose, onPanResponderMove, onPanResponderRelease,
      onStartShouldSetPanResponder, setModalVisibility, complete,
      call_onClose; simpl;
    repeat (case_if; simpl); intros t' Ht';
    try discriminate Ht';
    try (injection Ht' as <-; auto);
    try (apply Ht; assumption).
Qed.

Lemma range_run cfg lo es : forall s,
  lo <= minClosingHeight cfg -> minClosingHeight cfg <= height cfg ->
  timing_ok cfg s ->
  lo <= animatedHeight s <= height cfg ->
  lo <= animatedHeight (run cfg es s) <= height cfg.
Proof.
  induction es as [|e es IH]; intros s Hlo Hhi Htm Hah; [exact Hah|].
  change (run cfg (e :: es) s) with (run cfg es (step cfg s e)).
  apply IH; auto using timing_ok_step.
  apply range_step; auto.
Qed.

Lemma timing_ok_run cfg es : forall s,
  timing_ok cfg s -> timing_ok cfg (run cfg es s).
Proof.
  induction es as [|e es IH]; intros s Htm; [exact Htm|].
  change (run cfg (e :: es) s) with (run cfg es (step cfg s e)).
  apply IH. now apply timing_ok_step.
Qed.

(** An instance mounted while an earlier one with [height = 260] is fully
    open finds 260 in the shared value, above its own [height = 100]. *)
Example later_instance_inherits_height :
  animatedHeight (mountedBeside (run plainSheet [CallOpen; HeightEnd] initial))
  = 260 /\
  ~ (260 <= height shortSheet).
Proof. split; [reflexivity | intros H; now apply H]. Qed.

(** C6, as stated, fails: with [minClosingHeight = 50] (and the default
    [height = 260]) a new instance has [animatedHeight = 0], below
    [minClosingHeight], and so has the visible panel on the first frames of
    its first opening. *)
Lemma initial_height_below_minClosingHeight :
  0 <= minClosingHeight tallClosingSheet < height tallClosingSheet /\
  reachable tallClosingSheet initial /\
  ~ (minClosingHeight tallClosingSheet <= animatedHeight initial) /\
  modalVisible (run tallClosingSheet [CallOpen; HeightFrame 10] initial) = true /\
  ~ (minClosingHeight tallClosingSheet
     <= animatedHeight (run tallClosingSheet [CallOpen; HeightFrame 10] initial)).
Proof.
  split; [split; [discriminate | reflexivity]|].
  split; [apply reachable_initial|].
  split; [intros H; now apply H|].
  split; [reflexivity | intros H; now apply H].
Qed.

(** C6, amended: for a configuration with
    [0 <= minClosingHeight <= height], take an instance that finds
    [animatedHeight] between 0 and [height] when it is mounted (the first
    instance finds 0) and that alone drives the value.  Then
    [animatedHeight] stays between 0 and [height] in every state the
    instance reaches, and from any such state in which it is at least
    [minClosingHeight] it never drops below [minClosingHeight] again. *)
Theorem height_stays_in_range cfg a p s :
  0 <= minClosingHeight cfg -> minClosingHeight cfg <= height cfg ->
  0 <= a <= height cfg ->
  reachableFrom cfg (mountedAt a p) s ->
  0 <= animatedHeight s <= height cfg /\
  (forall es,
     minClosingHeight cfg <= animatedHeight s ->
     minClosingHeight cfg <= animatedHeight (run cfg es s) <= height cfg).
Proof.
  intros Hlo Hhi Ha [es0 ->].
  assert (Htm0 : timing_ok cfg (mountedAt a p))
    by (intros t Ht; discriminate Ht).
  assert (Hzero : 0 <= animatedHeight (run cfg es0 (mountedAt a p)) <= height cfg)
    by (apply range_run; auto).
  split; [exact Hzero|].
  intros es Hmin. apply range_run; auto using timing_ok_run; lra.
Qed.

Lemma height_stays_in_range_witness :
  let s := run tallClosingSheet [CallOpen; HeightFrame 10; HeightFrame 200]
             (mountedAt 0 (0, 0)) in
  0 <= animatedHeight s <= 260 /\
  (forall es,
     50 <= animatedHeight s ->
     50 <= animatedHeight (run tallClosingSheet es s) <= 260).
Proof.
  apply (height_stays_in_range tallClosingSheet 0 (0, 0)
           (run tallClosingSheet [CallOpen; HeightFrame 10; HeightFrame 200]
              (mountedAt 0 (0, 0)))).
  - discriminate.
  - discriminate.
  - split; discriminate.
  - now exists [CallOpen; HeightFrame 10; HeightFrame 200].
Defined.

(** The same for an instance that inherits 180 and a dragged [pan] from an
    earlier one. *)
Example height_stays_in_range_later_instance :
  let s := run tallClosingSheet [CallOpen; HeightFrame 200; CallClose; HeightFrame 60]
             (mountedAt 180 (0, 40)) in
  animatedHeight s = 60 /\ 0 <= animatedHeight s <= 260.
Proof. split; [reflexivity | split; discriminate]. Qed.

(** ** Further properties of the gesture tracker *)

Lemma step_move cfg s dy :
  modalVisible s = true -> responder s = true ->
  step cfg s (TouchMove dy) = onPanResponderMove dy s.
Proof.
  intros Hv Hr. unfold step, deliver, mounted. rewrite Hv, Hr. simpl.
  apply commit_mounted. unfold onPanResponderMove.
  now destruct (Qlt_le_dec 0 dy).
Qed.

(** X1: after any sequence of drag samples delivered to the panel that
    holds the gesture, [pan.y] is the latest sample with [dy > 0], or what
    it was if there is none: the panel does not follow the finger back up
    past its resting position.  [pan.x], the visibility, the height, its run
    and the calls of [onClose] are untouched. *)
Theorem samples_leave_last_downward cfg dys : forall s,
  modalVisible s = true -> responder s = true ->
  pan (run cfg (map TouchMove dys) s)
  = (fst (pan s), lastDownward dys (snd (pan s))) /\
  modalVisible (run cfg (map TouchMove dys) s) = true /\
  responder (run cfg (map TouchMove dys) s) = true /\
  animatedHeight (run cfg (map TouchMove dys) s) = animatedHeight s /\
  heightTiming (run cfg (map TouchMove dys) s) = heightTiming s /\
  onCloseCalls (run cfg (map TouchMove dys) s) = onCloseCalls s.
Proof.
  induction dys as [|dy dys IH]; intros s Hv Hr.
  - simpl. destruct (pan s). repeat split; auto.
  - change (run cfg (map TouchMove (dy :: dys)) s)
      with (run cfg (map TouchMove dys) (step cfg s (TouchMove dy))).
    rewrite (step_move cfg s dy Hv Hr).
    assert (Hshape :
      pan (onPanResponderMove dy s) = (fst (pan s), follow (snd (pan s)) dy) /\
      modalVisible (onPanResponderMove dy s) = true /\
      responder (onPanResponderMove dy s) = true /\
      animatedHeight (onPanResponderMove dy s) = animatedHeight s /\
      heightTiming (onPanResponderMove dy s) = heightTiming s /\
      onCloseCalls (onPanResponderMove dy s) = onCloseCalls s).
    { unfold onPanResponderMove, follow.
      destruct (Qlt_le_dec 0 dy); simpl; destruct (pan s);
        repeat split; auto. }
    destruct Hshape as (Hp & Hv' & Hr' & Hh & Ht & Hc).
    destruct (IH _ Hv' Hr') as (IHp & IHv & IHr & IHh & IHt & IHc).
    rewrite IHp, Hp, IHh, Hh, IHt, Ht, IHc, Hc. simpl.
    repeat split; auto.
Qed.

Lemma samples_leave_last_downward_witness :
  pan (run draggableSheet (map TouchMove [30; 80; -5; 0]) dragging)
  = (fst (pan dragging), lastDownward [30; 80; -5; 0] (snd (pan dragging))).
Proof.
  apply (samples_leave_last_downward draggableSheet [30; 80; -5; 0] dragging);
    reflexivity.
Defined.

Lemma quarter (h : Q) : h / 4 == h * (1 # 4).
Proof. reflexivity. Qed.

(** X2: on a draggable sheet with [height >= 0] that is open and at rest, a
    tap or an upward flick on the panel (a gesture released with
    [dy <= 0]) leaves the sheet exactly as it was once the snap-back spring
    has ended: nothing is closed and nothing is called. *)
Theorem tap_leaves_sheet_alone cfg s dy :
  closeOnDragDown cfg = true -> 0 <= height cfg -> dy <= 0 ->
  modalVisible s = true -> responder s = false ->
  panSpring s = false -> pan s = (0, 0) ->
  run cfg [TouchStart; TouchRelease dy; SpringEnd] s = s.
Proof.
  intros Hcfg Hh Hdy Hv Hr Hsp Hp.
  destruct s as [vis ah p tm sp rs calls]; simpl in Hv, Hr, Hsp, Hp; subst.
  change (run cfg [TouchStart; TouchRelease dy; SpringEnd] ?s0)
    with (step cfg (step cfg (step cfg s0 TouchStart) (TouchRelease dy)) SpringEnd).
  assert (Hstart : step cfg (mkSheet true ah (0, 0) tm false false calls) TouchStart
                   = mkSheet true ah (0, 0) tm false true calls).
  { unfold step, deliver, mounted, onStartShouldSetPanResponder.
    simpl. rewrite Hcfg. reflexivity. }
  rewrite Hstart.
  rewrite step_release by reflexivity.
  unfold onPanResponderRelease.
  destruct (Qlt_le_dec (height cfg / 4 - dy) 0) as [Hlt | _];
    [exfalso; rewrite quarter in Hlt; lra|].
  reflexivity.
Qed.

Lemma tap_leaves_sheet_alone_witness :
  run draggableSheet [TouchStart; TouchRelease 0; SpringEnd]
    (run draggableSheet [CallOpen; HeightEnd] initial)
  = run draggableSheet [CallOpen; HeightEnd] initial.
Proof.
  apply (tap_leaves_sheet_alone draggableSheet
           (run draggableSheet [CallOpen; HeightEnd] initial) 0);
    try reflexivity; discriminate.
Defined.

(** ** Further properties of the visibility controller *)

Lemma commit_visible s : modalVisible (commit s) = modalVisible s.
Proof. unfold commit. now destruct (mounted s). Qed.

(** X3: the sheet appears only at a call of [open()] and disappears only at
    the completion of a close run: no drag, mask press, back request,
    frame or call of [close()] changes [modalVisible] by itself. *)
Theorem visibility_changes_only_at_open_and_close_end cfg s e :
  modalVisible (step cfg s e) <> modalVisible s ->
  (e = CallOpen /\ modalVisible s = false) \/
  (e = HeightEnd /\ modalVisible s = true /\
   exists t, heightTiming s = Some t /\ onEnd t = FinishClose).
Proof.
  unfold step. rewrite commit_visible.
  destruct s as [vis ah p tm sp rs calls].
  destruct e; unfold deliver, mounted, open, close, onPress, onRequestClose,
    onPanResponderMove, onPanResponderRelease, setModalVisibility, complete,
    call_onClose; simpl;
    repeat (case_if; simpl); intros H;
    try (exfalso; apply H; reflexivity).
  - left. destruct vis; [exfalso; apply H; reflexivity | auto].
  - right. destruct vis; [|exfalso; apply H; reflexivity].
    split; [reflexivity|]. split; [reflexivity|].
    eexists; split; [reflexivity | assumption].
  - right. destruct vis; [|exfalso; apply H; reflexivity].
    split; [reflexivity|]. split; [reflexivity|].
    eexists; split; [reflexivity | assumption].
Qed.

Lemma visibility_changes_only_at_open_and_close_end_witness :
  (CallOpen = CallOpen /\ modalVisible initial = false) \/
  (CallOpen = HeightEnd /\ modalVisible initial = true /\
   exists t, heightTiming initial = Some t /\ onEnd t = FinishClose).
Proof.
  apply (visibility_changes_only_at_open_and_close_end plainSheet initial CallOpen).
  discriminate.
Defined.

Lemma between_at_target a h v :
  a == h -> between a h v = true -> v == h.
Proof.
  intros Ha H. unfold between in H.
  apply orb_prop in H. destruct H as [H | H];
    apply andb_prop in H; destruct H as [H1 H2];
    apply Qle_bool_iff in H1; apply Qle_bool_iff in H2; lra.
Qed.

(** Frames of a run whose value already sits at the target can only write
    values equal to the target. *)
Lemma frames_hold cfg k h vs : forall x,
  heightTiming x = Some (mkTiming h k) ->
  animatedHeight x == h ->
  modalVisible x = true ->
  exists a, a == h /\ run cfg (map HeightFrame vs) x = animatedHeight_setValue a x.
Proof.
  induction vs as [|v vs IH]; intros x Ht Ha Hv.
  - exists (animatedHeight x). split; [exact Ha|]. now destruct x.
  - change (run cfg (map HeightFrame (v :: vs)) x)
      with (run cfg (map HeightFrame vs) (step cfg x (HeightFrame v))).
    unfold step, deliver. rewrite Ht. simpl toValue.
    destruct (between (animatedHeight x) h v) eqn:Hb.
    + rewrite commit_mounted by exact Hv.
      destruct (IH (animatedHeight_setValue v x)) as (a & Ha' & Hrun); auto.
      { simpl. eapply between_at_target; eassumption. }
      exists a. split; [exact Ha'|]. rewrite Hrun. reflexivity.
    + rewrite commit_mounted by exact Hv. now apply IH.
Qed.

(** X4: [open()] on a sheet that is already open and at rest at its full
    height starts the opening run again, there being no guard: the state
    changes, a run towards [height] is in flight after the call and
    through all its frames.  But that run never moves the height away from
    [height] and calls nothing; when it completes the sheet is exactly as
    it was before the call. *)
Theorem reopen_at_rest_changes_nothing cfg s vs :
  modalVisible s = true -> heightTiming s = None ->
  animatedHeight s = height cfg ->
  step cfg s CallOpen <> s /\
  heightTiming (run cfg (CallOpen :: map HeightFrame vs) s)
  = Some (mkTiming (height cfg) PinHeight) /\
  animatedHeight (run cfg (CallOpen :: map HeightFrame vs) s) == height cfg /\
  onCloseCalls (run cfg (CallOpen :: map HeightFrame vs) s) = onCloseCalls s /\
  run cfg (CallOpen :: map HeightFrame vs ++ [HeightEnd]) s = s.
Proof.
  intros Hv Ht Ha.
  assert (Hopen : step cfg s CallOpen = timing_start (height cfg) PinHeight s).
  { unfold step, deliver, open, setModalVisibility.
    rewrite commit_mounted by reflexivity.
    destruct s; simpl in *; subst; reflexivity. }
  change (run cfg (CallOpen :: ?l) s) with (run cfg l (step cfg s CallOpen)).
  rewrite Hopen.
  destruct (frames_hold cfg PinHeight (height cfg) vs
              (timing_start (height cfg) PinHeight s))
    as (a & Haeq & Hrun); try reflexivity; auto.
  { simpl. rewrite Ha. reflexivity. }
  rewrite run_app, Hrun.
  split; [|split; [reflexivity|]].
  { intros Heq. apply (f_equal heightTiming) in Heq. simpl in Heq.
    rewrite Ht in Heq. discriminate Heq. }
  split; [exact Haeq|]. split; [reflexivity|].
  destruct s; simpl in *; subst. reflexivity.
Qed.

Lemma reopen_at_rest_changes_nothing_witness :
  let s := run plainSheet [CallOpen; HeightEnd] initial in
  step plainSheet s CallOpen <> s /\
  heightTiming (run plainSheet (CallOpen :: map HeightFrame [260; 520 # 2]) s)
  = Some (mkTiming 260 PinHeight) /\
  animatedHeight (run plainSheet (CallOpen :: map HeightFrame [260; 520 # 2]) s) == 260 /\
  onCloseCalls (run plainSheet (CallOpen :: map HeightFrame [260; 520 # 2]) s)
  = onCloseCalls s /\
  run plainSheet (CallOpen :: map HeightFrame [260; 520 # 2] ++ [HeightEnd]) s = s.
Proof.
  apply (reopen_at_rest_changes_nothing plainSheet
           (run plainSheet [CallOpen; HeightEnd] initial) [260; 520 # 2]);
    reflexivity.
Defined.

Lemma passive_keeps_run cfg e x :
  passive e = true ->
  heightTiming (step cfg x e) = heightTiming x /\
  onCloseCalls (step cfg x e) = onCloseCalls x.
Proof.
  destruct x as [vis ah p tm sp rs calls].
  destruct e; try discriminate; intros _;
    unfold step, commit, deliver, mounted, onStartShouldSetPanResponder,
      onPanResponderMove; simpl;
    repeat (case_if; simpl); split; reflexivity.
Qed.

Lemma passive_run_keeps_run cfg es : forall x,
  forallb passive es = true ->
  heightTiming (run cfg es x) = heightTiming x /\
  onCloseCalls (run cfg es x) = onCloseCalls x.
Proof.
  induction es as [|e es IH]; intros x H; [split; reflexivity|].
  simpl in H. apply andb_prop in H. destruct H as [He Hes].
  change (run cfg (e :: es) x) with (run cfg es (step cfg x e)).
  destruct (IH (step cfg x e) Hes) as [-> ->].
  now apply passive_keeps_run.
Qed.

(** X5: once [close()] has been called, gesture starts, drag samples,
    frames of the run and the end of a snap-back spring neither cancel the
    close run nor call [onClose]: whatever their number and order, the
    completion of the run leaves the sheet closed, [pan] at (0,0),
    [animatedHeight] at [minClosingHeight], and [onClose] called once. *)
Theorem close_run_survives_passive_events cfg es s :
  forallb passive es = true ->
  let s' := run cfg (CallClose :: es ++ [HeightEnd]) s in
  onCloseCalls (run cfg (CallClose :: es) s) = onCloseCalls s /\
  modalVisible s' = false /\
  pan s' = (0, 0) /\
  animatedHeight s' = minClosingHeight cfg /\
  heightTiming s' = None /\
  onCloseCalls s'
  = (if onClose cfg then [closedView cfg] else []) ++ onCloseCalls s.
Proof.
  intros Hes s'. subst s'.
  change (run cfg (CallClose :: ?l) s) with (run cfg l (step cfg s CallClose)).
  rewrite run_app.
  destruct (passive_run_keeps_run cfg es (step cfg s CallClose) Hes)
    as [Ht Hc].
  assert (Ht0 : heightTiming (step cfg s CallClose)
                = Some (mkTiming (minClosingHeight cfg) FinishClose))
    by (destruct s as [[] ? ? ? ? ? ?]; reflexivity).
  assert (Hc0 : onCloseCalls (step cfg s CallClose) = onCloseCalls s)
    by (destruct s as [[] ? ? ? ? ? ?]; reflexivity).
  rewrite Ht0 in Ht. rewrite Hc0 in Hc.
  split; [exact Hc|].
  generalize dependent (run cfg es (step cfg s CallClose)).
  intros x Ht Hc. destruct x as [vis ah p tm sp rs calls].
  simpl in Ht, Hc. subst tm calls.
  unfold run, step, commit, mounted, deliver, complete, call_onClose; simpl.
  destruct (onClose cfg); simpl; repeat split; reflexivity.
Qed.

Lemma close_run_survives_passive_events_witness :
  let es := [TouchMove 20; HeightFrame 100; TouchStart; SpringEnd; TouchMove 40] in
  let s' := run draggableSheet (CallClose :: es ++ [HeightEnd]) dragging in
  onCloseCalls (run draggableSheet (CallClose :: es) dragging)
  = onCloseCalls dragging /\
  modalVisible s' = false /\
  pan s' = (0, 0) /\
  animatedHeight s' = minClosingHeight draggableSheet /\
  heightTiming s' = None /\
  onCloseCalls s' = [closedView draggableSheet] ++ onCloseCalls dragging.
Proof.
  apply (close_run_survives_passive_events draggableSheet
           [TouchMove 20; HeightFrame 100; TouchStart; SpringEnd; TouchMove 40]
           dragging).
  reflexivity.
Defined.

(** ** The instance across renders *)

Lemma play_snoc inps inp i :
  play (inps ++ [inp]) i = advance (play inps i) inp.
Proof. unfold play. now rewrite fold_left_app. Qed.

Lemma depsChanged_same (c c' : Config) :
  height c == height c' -> depsChanged c c' = false.
Proof.
  intros H. unfold depsChanged. apply Qeq_bool_iff in H. now rewrite H.
Qed.

Lemma touch_ignored_when_closed cfg s e :
  Inv cfg s -> modalVisible s = false -> isTouch e = true ->
  step cfg s e = s.
Proof.
  intros (_ & Hresp & _) Hv He.
  assert (Hr : responder s = false).
  { destruct (responder s) eqn:E; [|reflexivity].
    destruct (Hresp E) as [_ Hv']. congruence. }
  destruct e; try discriminate He;
    unfold step, deliver, mounted; rewrite Hv; simpl;
    now apply commit_idle.
Qed.

Lemma handle_sheet i e c :
  closureFor i e = Some c -> sheet (handle i e) = step c (sheet i) e.
Proof.
  intros Hc. unfold handle. rewrite Hc. simpl.
  now destruct (Bool.eqb (modalVisible (sheet i))
                          (modalVisible (step c (sheet i) e))).
Qed.

Lemma settled_mount cfg : settled cfg (mount cfg).
Proof.
  unfold settled, mount; simpl.
  repeat split; auto using reachable_initial.
Qed.

Lemma settled_render cfg i :
  settled cfg i -> settled cfg (render cfg i) /\ sheet (render cfg i) = sheet i.
Proof.
  intros (Hp & Hc & Ht & Hh & Hr). split; [|reflexivity].
  unfold settled, render; simpl. rewrite Hp, Hc.
  rewrite depsChanged_same by reflexivity.
  repeat split; auto.
Qed.

Lemma settled_handle cfg i e :
  settled cfg i ->
  settled cfg (handle i e) /\ sheet (handle i e) = step cfg (sheet i) e.
Proof.
  intros Hs. pose proof Hs as (Hp & Hc & Ht & Hh & Hr).
  destruct (closureFor i e) as [c|] eqn:Hcl.
  - assert (c = cfg).
    { destruct e; simpl in Hcl;
        try (injection Hcl as <-; assumption);
        destruct Hh as [Hh | [Hh _]]; rewrite Hh in Hcl; congruence. }
    subst c. split; [|now apply handle_sheet].
    unfold handle. rewrite Hcl. simpl.
    destruct (Bool.eqb (modalVisible (sheet i))
                       (modalVisible (step cfg (sheet i) e))) eqn:Hsame.
    + unfold settled; simpl. rewrite Ht.
      repeat split; auto using reachable_step.
      * now destruct (startsRun cfg (sheet i) e).
      * destruct Hh as [Hh | [Hh Hv]]; [now left | right].
        split; [exact Hh|]. apply eqb_prop in Hsame. congruence.
    + unfold settled, render; simpl. rewrite Hp, Hc, Ht.
      rewrite depsChanged_same by reflexivity.
      repeat split; auto using reachable_step.
      now destruct (startsRun cfg (sheet i) e).
  - assert (He : isTouch e = true) by (destruct e; simpl in Hcl |- *; congruence).
    assert (Hnone : panHandlers i = None)
      by (destruct e; simpl in Hcl; congruence).
    destruct Hh as [Hh | [_ Hv]]; [congruence|].
    unfold handle. rewrite Hcl. split; [exact Hs|].
    symmetry. apply touch_ignored_when_closed; auto.
    now apply reachable_Inv.
Qed.

Lemma settled_play cfg inps : forall i,
  settled cfg i -> rerendersWith (fun c => c = cfg) inps ->
  settled cfg (play inps i) /\
  sheet (play inps i) = run cfg (events_of inps) (sheet i).
Proof.
  induction inps as [|inp inps IH]; intros i Hs Hall.
  - split; [exact Hs | reflexivity].
  - inversion Hall as [|? ? Hinp Hrest]; subst.
    change (play (inp :: inps) i) with (play inps (advance i inp)).
    destruct inp as [c | e]; simpl in Hinp |- *.
    + subst c. destruct (settled_render cfg i Hs) as [Hs' Hsh].
      destruct (IH _ Hs' Hrest) as [Hfin Hrun].
      split; [exact Hfin|]. now rewrite Hrun, Hsh.
    + destruct (settled_handle cfg i e Hs) as [Hs' Hsh].
      destruct (IH _ Hs' Hrest) as [Hfin Hrun].
      split; [exact Hfin|]. now rewrite Hrun, Hsh.
Qed.

(** X6: as long as the owner re-renders the component with the props it
    was mounted with, the instance with its hooks does exactly what the
    state machine with fixed props does on the same events: re-renders
    change nothing, and wherever the machine delivers a gesture the panel is
    in the tree with the handlers of these props. *)
Theorem fixed_props_instance_is_the_machine cfg inps :
  rerendersWith (fun c => c = cfg) inps ->
  sheet (play inps (mount cfg)) = run cfg (events_of inps) initial.
Proof.
  intros Hall.
  destruct (settled_play cfg inps (mount cfg) (settled_mount cfg) Hall)
    as [_ H].
  exact H.
Qed.

Lemma fixed_props_instance_is_the_machine_witness :
  sheet (play [Fire CallOpen; Rerender draggableSheet; Fire HeightEnd;
               Fire TouchStart; Fire (TouchMove 70); Rerender draggableSheet;
               Fire (TouchRelease 70); Fire HeightEnd] (mount draggableSheet))
  = run draggableSheet
      [CallOpen; HeightEnd; TouchStart; TouchMove 70; TouchRelease 70; HeightEnd]
      initial.
Proof.
  apply (fixed_props_instance_is_the_machine draggableSheet
           [Fire CallOpen; Rerender draggableSheet; Fire HeightEnd;
            Fire TouchStart; Fire (TouchMove 70); Rerender draggableSheet;
            Fire (TouchRelease 70); Fire HeightEnd]).
  repeat constructor.
Defined.

Lemma stale_mount cfg : stale cfg (mount cfg).
Proof.
  unfold stale, mount; simpl.
  split; [reflexivity | split; [reflexivity | now left]].
Qed.

Lemma stale_render cfg c i :
  height c == height cfg -> stale cfg i -> stale cfg (render c i).
Proof.
  intros Hc (Hh & Hcur & Hpan). unfold stale, render; simpl.
  rewrite depsChanged_same by (rewrite Hh, Hc; reflexivity).
  repeat split; auto.
Qed.

Lemma stale_handle cfg i e : stale cfg i -> stale cfg (handle i e).
Proof.
  intros Hs. unfold handle.
  destruct (closureFor i e) as [c|]; [|exact Hs].
  match goal with
  | |- context [if ?b then ?x else _] => destruct b; [|apply stale_render]
  end.
  - exact Hs.
  - simpl. now destruct Hs.
  - exact Hs.
Qed.

Lemma stale_play cfg inps : forall i,
  rerendersWith (fun c => height c == height cfg) inps ->
  stale cfg i -> stale cfg (play inps i).
Proof.
  induction inps as [|inp inps IH]; intros i Hall Hs; [exact Hs|].
  inversion Hall as [|? ? Hinp Hrest]; subst.
  change (play (inp :: inps) i) with (play inps (advance i inp)).
  apply IH; [exact Hrest|].
  destruct inp as [c | e]; simpl in *.
  - now apply stale_render.
  - now apply stale_handle.
Qed.

(** X7: the gesture responder is rebuilt only when [height] changes.  As
    long as every re-render keeps the [height] the sheet was mounted with,
    [panResponder.current], and with it the handlers on the panel, stay
    those of the props at mount, whatever [closeOnDragDown],
    [minClosingHeight], [duration] or [onClose] the later renders pass. *)
Theorem responder_rebuilt_only_when_height_changes cfg inps :
  rerendersWith (fun c => height c == height cfg) inps ->
  panResponder_current (play inps (mount cfg)) = Some cfg /\
  (panHandlers (play inps (mount cfg)) = None \/
   panHandlers (play inps (mount cfg)) = Some cfg).
Proof.
  intros Hall.
  destruct (stale_play cfg inps (mount cfg) Hall (stale_mount cfg))
    as (_ & Hcur & Hpan).
  split; assumption.
Qed.

Lemma responder_rebuilt_only_when_height_changes_witness :
  panResponder_current
    (play [Rerender draggableSheet; Fire CallOpen; Rerender stubborn]
       (mount plainSheet)) = Some plainSheet /\
  (panHandlers
     (play [Rerender draggableSheet; Fire CallOpen; Rerender stubborn]
        (mount plainSheet)) = None \/
   panHandlers
     (play [Rerender draggableSheet; Fire CallOpen; Rerender stubborn]
        (mount plainSheet)) = Some plainSheet).
Proof.
  apply (responder_rebuilt_only_when_height_changes plainSheet
           [Rerender draggableSheet; Fire CallOpen; Rerender stubborn]).
  repeat constructor.
Defined.

Lemma stale_mountAt cfg a p : stale cfg (mountAt cfg a p).
Proof.
  unfold stale, mountAt; simpl.
  split; [reflexivity | split; [reflexivity | now left]].
Qed.

Lemma undragged_step c p s e :
  (isTouch e = true -> closeOnDragDown c = false) ->
  undragged p s -> undragged p (step c s e).
Proof.
  intros Hc (Hr & Hsp & Hp).
  destruct s as [vis ah q tm sp rs calls]; simpl in Hr, Hsp, Hp; subst.
  unfold undragged.
  destruct e;
    unfold step, commit, mounted, deliver, open, close, onPress,
      onRequestClose, onStartShouldSetPanResponder, setModalVisibility,
      complete, call_onClose; simpl;
    try (rewrite (Hc eq_refl)); try (rewrite andb_false_r);
    repeat (case_if; simpl);
    (split; [reflexivity | split; [reflexivity | auto]]).
Qed.

Lemma undragged_handle cfg p i e :
  stale cfg i -> closeOnDragDown cfg = false ->
  undragged p (sheet i) -> undragged p (sheet (handle i e)).
Proof.
  intros (_ & _ & Hpan) Hoff Hu.
  destruct (closureFor i e) as [c|] eqn:Hcl.
  - rewrite (handle_sheet i e c Hcl). apply undragged_step; [|exact Hu].
    intros He. destruct e; try discriminate He; simpl in Hcl;
      destruct Hpan as [Hpan | Hpan]; rewrite Hpan in Hcl; congruence.
  - unfold handle. now rewrite Hcl.
Qed.

Lemma undragged_play cfg p inps : forall i,
  rerendersWith (fun c => height c == height cfg) inps ->
  closeOnDragDown cfg = false ->
  stale cfg i -> undragged p (sheet i) -> undragged p (sheet (play inps i)).
Proof.
  induction inps as [|inp inps IH]; intros i Hall Hoff Hs Hu; [exact Hu|].
  inversion Hall as [|? ? Hinp Hrest]; subst.
  change (play (inp :: inps) i) with (play inps (advance i inp)).
  destruct inp as [c | e]; simpl in *.
  - apply IH; auto. now apply stale_render.
  - apply IH; auto;
      [now apply stale_handle | now apply (undragged_handle cfg)].
Qed.

(** X8: a sheet mounted without [closeOnDragDown] stays undraggable while
    its [height] is unchanged, even after the owner turns [closeOnDragDown]
    on.  Whatever [a] and [p] the instance finds in the shared values when
    it is mounted, through any history of its events and such re-renders
    the panel never takes the gesture, no snap-back spring starts, and no
    drag sample is written to [pan]: [pan] is still [p], unless a completed
    close has reset it to (0,0). *)
Theorem dragdown_turned_on_later_is_ignored cfg a p inps :
  closeOnDragDown cfg = false ->
  rerendersWith (fun c => height c == height cfg) inps ->
  responder (sheet (play inps (mountAt cfg a p))) = false /\
  panSpring (sheet (play inps (mountAt cfg a p))) = false /\
  (pan (sheet (play inps (mountAt cfg a p))) = p \/
   pan (sheet (play inps (mountAt cfg a p))) = (0, 0)).
Proof.
  intros Hoff Hall.
  apply (undragged_play cfg p inps (mountAt cfg a p));
    auto using stale_mountAt.
  split; [reflexivity | split; [reflexivity | now left]].
Qed.

Lemma dragdown_turned_on_later_is_ignored_witness :
  let i := play [Rerender draggableSheet; Fire CallOpen; Fire HeightEnd;
                 Fire TouchStart; Fire (TouchMove 120); Fire (TouchRelease 120)]
             (mountAt plainSheet 260 (0, 40)) in
  responder (sheet i) = false /\ panSpring (sheet i) = false /\
  (pan (sheet i) = (0, 40) \/ pan (sheet i) = (0, 0)).
Proof.
  apply (dragdown_turned_on_later_is_ignored plainSheet 260 (0, 40)
           [Rerender draggableSheet; Fire CallOpen; Fire HeightEnd;
            Fire TouchStart; Fire (TouchMove 120); Fire (TouchRelease 120)]).
  - reflexivity.
  - repeat constructor.
Defined.

(** C7 fails on the code when [closeOnDragDown] changes after the mount.
    The sheet [switchedOff] was mounted with [closeOnDragDown] and then
    re-rendered without it, with the same [height]: its current props say
    that dragging is off, but the effect of line 60 has not run again, and
    the handlers on the panel are still those built at the mount.  A touch
    on the open sheet takes the gesture, a sample of 120 is written to
    [pan.y], and the release closes the sheet and calls [onClose]. *)
Lemma dragdown_turned_off_is_still_dragged :
  closeOnDragDown (props switchedOff) = false /\
  modalVisible (sheet switchedOff) = true /\
  panHandlers switchedOff = Some draggableSheet /\
  responder (sheet (play [Fire TouchStart] switchedOff)) = true /\
  pan (sheet (play [Fire TouchStart; Fire (TouchMove 120)] switchedOff))
  = (0, 120) /\
  modalVisible
    (sheet (play [Fire TouchStart; Fire (TouchMove 120);
                  Fire (TouchRelease 120); Fire HeightEnd] switchedOff))
  = false /\
  onCloseCalls
    (sheet (play [Fire TouchStart; Fire (TouchMove 120);
                  Fire (TouchRelease 120); Fire HeightEnd] switchedOff))
  = [closedView draggableSheet].
Proof. repeat split. Qed.

(** After a change of [height] the panel keeps the handlers of the old
    responder for one more render. *)
Example new_height_reaches_the_panel_one_render_late :
  let cfg' := destructure (mkProps None (Some 400) None None (Some true) None None true) in
  let i := play [Fire CallOpen; Fire HeightEnd; Rerender cfg'] (mount draggableSheet) in
  panResponder_current i = Some cfg' /\
  panHandlers i = Some draggableSheet /\
  panHandlers (render cfg' i) = Some cfg'.
Proof. repeat split. Qed.

Lemma panelReady_render c i :
  panResponder_current i <> None -> panelReady (render c i).
Proof.
  intros Hcur. unfold panelReady, render; simpl. split.
  - now destruct (depsChanged (props i) c).
  - intros _. exact Hcur.
Qed.

Lemma panelReady_handle i e : panelReady i -> panelReady (handle i e).
Proof.
  intros Hp. unfold handle.
  destruct (closureFor i e) as [c|]; [|exact Hp].
  destruct Hp as [Hcur Hpan].
  destruct (Bool.eqb (modalVisible (sheet i))
                     (modalVisible (step c (sheet i) e))) eqn:Hsame.
  - unfold panelReady; simpl. split; [exact Hcur|].
    apply eqb_prop in Hsame. rewrite <- Hsame. exact Hpan.
  - apply panelReady_render. exact Hcur.
Qed.

(** X9: the first render draws no panel, because [panResponder.current] is
    still undefined when it runs; but whenever the modal is visible, after
    any history of events and re-renders with any props, the panel with its
    pan handlers is in the tree. *)
Theorem panel_in_tree_whenever_visible cfg inps :
  panHandlers (mount cfg) = None /\
  panResponder_current (play inps (mount cfg)) <> None /\
  (modalVisible (sheet (play inps (mount cfg))) = true ->
   panHandlers (play inps (mount cfg)) <> None).
Proof.
  split; [reflexivity|].
  assert (H : panelReady (play inps (mount cfg))).
  { induction inps as [|inp inps IH] using rev_ind.
    - unfold panelReady, mount; simpl. split; discriminate.
    - rewrite play_snoc. destruct inp as [c | e]; simpl.
      + apply panelReady_render. now destruct IH.
      + now apply panelReady_handle. }
  exact H.
Qed.

Lemma handle_timingClosure i e c :
  closureFor i e = Some c ->
  timingClosure (handle i e)
  = if startsRun c (sheet i) e then c else timingClosure i.
Proof.
  intros Hc. unfold handle. rewrite Hc. simpl.
  now destruct (Bool.eqb (modalVisible (sheet i))
                          (modalVisible (step c (sheet i) e))).
Qed.

Lemma rerenders_keep_run cs : forall i,
  sheet (play (map Rerender cs) i) = sheet i /\
  timingClosure (play (map Rerender cs) i) = timingClosure i.
Proof.
  induction cs as [|c cs IH]; intros i; [split; reflexivity|].
  change (play (map Rerender (c :: cs)) i)
    with (play (map Rerender cs) (render c i)).
  destruct (IH (render c i)) as [-> ->]. split; reflexivity.
Qed.

(** X10: a run on [animatedHeight] carries the props of the render in
    which it was started.  However often and with whatever props the owner
    re-renders before the run completes, an opening run ends at the
    [height] that was current at [open()], and a closing run ends at the
    [minClosingHeight] that was current at [close()] and calls the
    [onClose] that was supplied then. *)
Theorem run_ends_with_the_props_it_started_with i cs :
  let opened := handle (play (map Rerender cs) (handle i CallOpen)) HeightEnd in
  let closed := handle (play (map Rerender cs) (handle i CallClose)) HeightEnd in
  animatedHeight (sheet opened) = height (props i) /\
  modalVisible (sheet opened) = true /\
  animatedHeight (sheet closed) = minClosingHeight (props i) /\
  modalVisible (sheet closed) = false /\
  onCloseCalls (sheet closed)
  = (if onClose (props i) then [closedView (props i)] else [])
    ++ onCloseCalls (sheet i).
Proof.
  intros opened closed. subst opened closed.
  assert (Hend : forall e, startsRun (props i) (sheet i) e = true ->
            closureFor i e = Some (props i) ->
            sheet (handle (play (map Rerender cs) (handle i e)) HeightEnd)
            = step (props i) (step (props i) (sheet i) e) HeightEnd).
  { intros e Hstart Hcl.
    destruct (rerenders_keep_run cs (handle i e)) as [Hsh Htc].
    rewrite (handle_sheet _ HeightEnd (props i)).
    - now rewrite Hsh, (handle_sheet i e (props i) Hcl).
    - simpl. rewrite Htc, (handle_timingClosure i e (props i) Hcl), Hstart.
      reflexivity. }
  rewrite (Hend CallOpen), (Hend CallClose) by reflexivity.
  destruct (sheet i) as [vis ah p tm sp rs calls].
  unfold step, commit, mounted, deliver, open, close, setModalVisibility,
    complete, call_onClose; simpl.
  destruct vis; simpl; destruct (onClose (props i)); simpl;
    repeat split; reflexivity.
Qed.

(** An opening run started with [height = 260] ends at 260 although the
    owner has re-rendered with [height = 400] in between. *)
Example opening_run_ignores_new_height :
  let cfg' := destructure (mkProps None (Some 400) None None None None None true) in
  let i := play [Fire CallOpen; Rerender cfg'; Fire HeightEnd] (mount plainSheet) in
  height (props i) = 400 /\ animatedHeight (sheet i) = 260.
Proof. split; reflexivity. Qed.

End BottomSheet.
